(** * pika/compat.py: a shallow embedding of [nonblocking_socketpair],
      [as_bytes], [to_digit], [get_linux_version] and the [long] class *)

From stdpp Require Import base gmap strings list.
From Stdlib Require Import ZArith.
From Stdlib Require DecimalPos.

(** ** Python exceptions and results *)

Inductive exn :=
| ValueError (msg : string)
| OSError (errno : Z)
| AttributeError (msg : string)
| UnicodeEncodeError (msg : string).

(** The outcome of a Python call: a value, or a raised exception. *)
Inductive result (A : Type) :=
| Ok (a : A)
| Exc (e : exn).
Arguments Ok {A} a.
Arguments Exc {A} e.

(** ** The host socket layer *)
Module Sock.

(** Linux values of the [socket] module constants. *)
Definition AF_INET : Z := 2.
Definition AF_INET6 : Z := 10.
Definition SOCK_STREAM : Z := 1.
Definition SOCK_DGRAM : Z := 2.
Definition EBADF : Z := 9.

(** The kernel-side state of one socket object. *)
Record sock := mk_sock {
  s_family : Z;
  s_type : Z;
  s_proto : Z;
  s_open : bool;
  s_blocking : bool;
  s_bound : option (string * Z);
  s_backlog : option Z;
  s_peer : option (string * Z)
}.

Definition fresh_sock (family type proto : Z) : sock :=
  mk_sock family type proto true true None None None.

Definition set_open (b : bool) (s : sock) : sock :=
  mk_sock (s_family s) (s_type s) (s_proto s) b (s_blocking s)
          (s_bound s) (s_backlog s) (s_peer s).
Definition set_blocking (b : bool) (s : sock) : sock :=
  mk_sock (s_family s) (s_type s) (s_proto s) (s_open s) b
          (s_bound s) (s_backlog s) (s_peer s).
Definition set_bound (a : string * Z) (s : sock) : sock :=
  mk_sock (s_family s) (s_type s) (s_proto s) (s_open s) (s_blocking s)
          (Some a) (s_backlog s) (s_peer s).
Definition set_backlog (n : Z) (s : sock) : sock :=
  mk_sock (s_family s) (s_type s) (s_proto s) (s_open s) (s_blocking s)
          (s_bound s) (Some n) (s_peer s).
Definition set_peer (a : string * Z) (s : sock) : sock :=
  mk_sock (s_family s) (s_type s) (s_proto s) (s_open s) (s_blocking s)
          (s_bound s) (s_backlog s) (Some a).

(** The system calls made through the [socket] module, and what each
    returned; the trace of the world records them in order (newest first). *)
Inductive syscall :=
| SysSocket (family type proto : Z)
| SysBind (fd : nat) (addr : string * Z)
| SysListen (fd : nat) (backlog : Z)
| SysGetsockname (fd : nat)
| SysConnect (fd : nat) (addr : string * Z)
| SysAccept (fd : nat)
| SysClose (fd : nat)
| SysSetblocking (fd : nat) (flag : bool).

Inductive sysret :=
| RetOk
| RetFd (fd : nat)
| RetErr (errno : Z).

(** The host: which system call fails (indexed by its position in the
    trace), the platform's [socket.SOMAXCONN], and the port the OS
    assigns to a bind on port 0. *)
Record os_env := mk_env {
  fault : nat -> option Z;
  SOMAXCONN : Z;
  ephemeral_port : Z
}.

Record world := mk_world {
  w_next : nat;
  w_socks : gmap nat sock;
  w_trace : list (syscall * sysret)
}.

(** The descriptor table update [fd := s]. *)
Definition upd (m : gmap nat sock) (fd : nat) (s : sock) : gmap nat sock :=
  <[fd := s]> m.
Arguments upd : simpl never.

Definition log (c : syscall) (r : sysret) (w : world) : world :=
  mk_world (w_next w) (w_socks w) ((c, r) :: w_trace w).

Definition put (fd : nat) (s : sock) (w : world) : world :=
  mk_world (w_next w) (upd (w_socks w) fd s) (w_trace w).

(** The state-and-exception monad the program runs in. *)
Definition M (A : Type) : Type := os_env -> world -> result A * world.

Definition ret {A} (a : A) : M A := fun _ w => (Ok a, w).

Definition bind {A B} (m : M A) (k : A -> M B) : M B := fun env w =>
  match m env w with
  | (Ok a, w1) => k a env w1
  | (Exc e, w1) => (Exc e, w1)
  end.

Definition raise {A} (e : exn) : M A := fun _ w => (Exc e, w).

Definition get_SOMAXCONN : M Z := fun env w => (Ok (SOMAXCONN env), w).

(** [try: m except Exception as e: h e] *)
Definition try_except {A} (m : M A) (h : exn -> M A) : M A := fun env w =>
  match m env w with
  | (Ok a, w1) => (Ok a, w1)
  | (Exc e, w1) => h e env w1
  end.

(** [try: m finally: f]: [f] always runs; an exception it raises
    replaces the outcome of [m]. *)
Definition try_finally {A} (m : M A) (f : M unit) : M A := fun env w =>
  match m env w with
  | (r, w1) =>
      match f env w1 with
      | (Ok _, w2) => (r, w2)
      | (Exc e, w2) => (Exc e, w2)
      end
  end.

Notation "x <- m ;; k" := (bind m (fun x => k))
  (at level 100, m at next level, right associativity).
Notation "m ;; k" := (bind m (fun _ => k))
  (at level 100, right associativity).

(** [socket.socket(family, type, proto)]: a new descriptor. *)
Definition socket (family type proto : Z) : M nat := fun env w =>
  let c := SysSocket family type proto in
  match fault env (length (w_trace w)) with
  | Some e => (Exc (OSError e), log c (RetErr e) w)
  | None =>
      let fd := w_next w in
      (Ok fd, log c (RetFd fd)
                (mk_world (S fd) (upd (w_socks w) fd (fresh_sock family type proto))
                          (w_trace w)))
  end.

(** A method call on an open socket object: a closed (or unknown)
    descriptor gives [EBADF]; otherwise the call fails as the host says,
    or succeeds with [k]. *)
Definition on_sock {A} (fd : nat) (c : syscall)
    (k : os_env -> sock -> A * sock * sysret) : M A := fun env w =>
  match w_socks w !! fd with
  | Some s =>
      if s_open s then
        match fault env (length (w_trace w)) with
        | Some e => (Exc (OSError e), log c (RetErr e) w)
        | None =>
            let '(a, s', r) := k env s in (Ok a, log c r (put fd s' w))
        end
      else (Exc (OSError EBADF), log c (RetErr EBADF) w)
  | None => (Exc (OSError EBADF), log c (RetErr EBADF) w)
  end.

(** [sock.bind(addr)]: port 0 gets the OS-assigned ephemeral port. *)
Definition sock_bind (fd : nat) (addr : string * Z) : M unit :=
  on_sock fd (SysBind fd addr) (fun env s =>
    let a := if (addr.2 =? 0)%Z then (addr.1, ephemeral_port env) else addr in
    (tt, set_bound a s, RetOk)).

Definition sock_listen (fd : nat) (backlog : Z) : M unit :=
  on_sock fd (SysListen fd backlog) (fun _ s => (tt, set_backlog backlog s, RetOk)).

(** [sock.getsockname()[:2]]: host and port (the IPv6 flow info and
    scope id are dropped by the slice). *)
Definition sock_getsockname (fd : nat) : M (string * Z) :=
  on_sock fd (SysGetsockname fd) (fun _ s =>
    (default (""%string, 0%Z) (s_bound s), s, RetOk)).

Definition sock_connect (fd : nat) (addr : string * Z) : M unit :=
  on_sock fd (SysConnect fd addr) (fun _ s => (tt, set_peer addr s, RetOk)).

(** [sock.accept()]: the new connected socket (the peer address, which
    the caller discards, is not modelled). *)
Definition sock_accept (fd : nat) : M nat := fun env w =>
  match w_socks w !! fd with
  | Some s =>
      if s_open s then
        match fault env (length (w_trace w)) with
        | Some e => (Exc (OSError e), log (SysAccept fd) (RetErr e) w)
        | None =>
            let nfd := w_next w in
            (Ok nfd, log (SysAccept fd) (RetFd nfd)
                       (mk_world (S nfd)
                          (upd (w_socks w) nfd
                             (fresh_sock (s_family s) (s_type s) (s_proto s)))
                          (w_trace w)))
        end
      else (Exc (OSError EBADF), log (SysAccept fd) (RetErr EBADF) w)
  | None => (Exc (OSError EBADF), log (SysAccept fd) (RetErr EBADF) w)
  end.

(** [sock.close()]: CPython detaches the descriptor before calling
    close(2), so the socket is released even when close(2) reports an
    error, which is then raised; closing a closed socket object does
    nothing. *)
Definition sock_close (fd : nat) : M unit := fun env w =>
  match w_socks w !! fd with
  | Some s =>
      if s_open s then
        let w1 := put fd (set_open false s) w in
        match fault env (length (w_trace w)) with
        | Some e => (Exc (OSError e), log (SysClose fd) (RetErr e) w1)
        | None => (Ok tt, log (SysClose fd) RetOk w1)
        end
      else (Ok tt, w)
  | None => (Ok tt, w)
  end.

Definition sock_setblocking (fd : nat) (flag : bool) : M unit :=
  on_sock fd (SysSetblocking fd flag) (fun _ s => (tt, set_blocking flag s, RetOk)).

End Sock.

(** ** [nonblocking_socketpair] *)
Module Pair.
Import Sock.

Definition _LOCALHOST : string := "127.0.0.1".
Definition _LOCALHOST_V6 : string := "::1".

Definition msg_family : string :=
  "Only AF_INET and AF_INET6 socket address families are supported".
Definition msg_type : string := "Only SOCK_STREAM socket socket_type is supported".
Definition msg_proto : string := "Only protocol zero is supported".

(** Lines 159-192 of compat.py; the result is [(ssock, csock)]. *)
Definition nonblocking_socketpair (family socket_type proto : Z) : M (nat * nat) :=
  host <- (if (family =? AF_INET)%Z then ret _LOCALHOST
           else if (family =? AF_INET6)%Z then ret _LOCALHOST_V6
           else raise (ValueError msg_family)) ;;
  (if negb (socket_type =? SOCK_STREAM)%Z then raise (ValueError msg_type)
   else ret tt) ;;
  (if negb (proto =? 0)%Z then raise (ValueError msg_proto) else ret tt) ;;
  lsock <- socket family socket_type proto ;;
  cs <- try_finally
          (sock_bind lsock (host, 0%Z) ;;
           somaxconn <- get_SOMAXCONN ;;
           sock_listen lsock (Z.min somaxconn 128) ;;
           name <- sock_getsockname lsock ;;
           let '(addr, port) := name in
           csock <- socket family socket_type proto ;;
           ssock <- try_except
                      (sock_connect csock (addr, port) ;;
                       sock_accept lsock)
                      (fun e => sock_close csock ;; raise e) ;;
           ret (csock, ssock))
          (sock_close lsock) ;;
  let '(csock, ssock) := cs in
  sock_setblocking csock false ;;
  sock_setblocking ssock false ;;
  ret (ssock, csock).

(** Running the call: its outcome and the world after it. *)
Definition run {A} (m : M A) (env : os_env) (w : world) : result A * world :=
  m env w.

(** The system calls made by a run from [w] to [w'], oldest first. *)
Definition new_calls (w w' : world) : list (syscall * sysret) :=
  rev (firstn (length (w_trace w') - length (w_trace w)) (w_trace w')).

Arguments new_calls : simpl never.

(** An open socket in a world. *)
Definition is_open (w : world) (fd : nat) : bool :=
  match w_socks w !! fd with Some s => s_open s | None => false end.

Definition is_nonblocking (w : world) (fd : nat) : bool :=
  match w_socks w !! fd with Some s => negb (s_blocking s) | None => false end.

(** The number of [close()] calls on [fd] among [calls]. *)
Fixpoint closes (fd : nat) (calls : list (syscall * sysret)) : nat :=
  match calls with
  | [] => 0
  | (SysClose f, _) :: t => (if decide (f = fd) then 1 else 0) + closes fd t
  | _ :: t => closes fd t
  end.

(** The error of the [close()] call on [fd] among [calls], if it failed. *)
Fixpoint close_error (fd : nat) (calls : list (syscall * sysret)) : option Z :=
  match calls with
  | [] => None
  | (SysClose f, RetErr e) :: t => if decide (f = fd) then Some e else close_error fd t
  | _ :: t => close_error fd t
  end.

(** The system calls whose failure ends the call before the sockets are
    handed back: the creation of either socket and the steps of the
    handshake, up to the accept. *)
Definition try_step (c : syscall) : bool :=
  match c with
  | SysSocket _ _ _ | SysBind _ _ | SysListen _ _ | SysGetsockname _
  | SysConnect _ _ | SysAccept _ => true
  | SysClose _ | SysSetblocking _ _ => false
  end.

(** The errno that reaches the caller of [try: ... except: csock.close();
    raise ... finally: lsock.close()] when the handshake failed with
    [orig]: an exception raised by a close replaces the one being
    propagated, the listener's close coming last. *)
Definition reported_errno (orig : Z) (client_close listener_close : option Z) : Z :=
  match listener_close, client_close with
  | Some e, _ => e
  | None, Some e => e
  | None, None => orig
  end.

(** A host where nothing fails. *)
Definition env_ok : os_env := mk_env (fun _ => None) 4096 40000.

(** A host where the sixth system call (the connect) fails with
    ECONNREFUSED. *)
Definition env_connect_fails : os_env :=
  mk_env (fun n => if (n =? 5)%nat then Some 111%Z else None) 4096 40000.

(** As [env_connect_fails], and the close of the client-side socket that
    follows fails with EIO. *)
Definition env_close_fails : os_env :=
  mk_env (fun n => if (n =? 5)%nat then Some 111%Z
                   else if (n =? 6)%nat then Some 5%Z else None) 4096 40000.

(** A fresh process: descriptors 0-2 are taken, no socket yet. *)
Definition world0 : world := mk_world 3 ∅ [].

End Pair.
(** ** [as_bytes] *)
Module Bytes.

(** The Python values [as_bytes] can be handed: a [str] (its code
    points, each in [0, 0x10FFFF]), a [bytes] (its octets), or any other
    object, which has no [encode] method. *)
Inductive pyval :=
| PyStr (s : list Z)
| PyBytes (b : list Z)
| PyOther.

(** The UTF-8 encoding of one code point; a lone surrogate has none
    (Python's strict error handler raises). *)
Definition utf8_encode_char (c : Z) : option (list Z) :=
  if (c <? 128)%Z then Some [c]
  else if (c <? 2048)%Z then
    Some [Z.lor 192 (Z.shiftr c 6); Z.lor 128 (Z.land c 63)]
  else if (55296 <=? c)%Z && (c <=? 57343)%Z then None
  else if (c <? 65536)%Z then
    Some [Z.lor 224 (Z.shiftr c 12); Z.lor 128 (Z.land (Z.shiftr c 6) 63);
          Z.lor 128 (Z.land c 63)]
  else
    Some [Z.lor 240 (Z.shiftr c 18); Z.lor 128 (Z.land (Z.shiftr c 12) 63);
          Z.lor 128 (Z.land (Z.shiftr c 6) 63); Z.lor 128 (Z.land c 63)].

Fixpoint utf8_encode (s : list Z) : option (list Z) :=
  match s with
  | [] => Some []
  | c :: t =>
      match utf8_encode_char c, utf8_encode t with
      | Some b, Some bt => Some (b ++ bt)
      | _, _ => None
      end
  end.

(** [value.encode('UTF-8')] *)
Definition encode_utf8 (v : pyval) : result (list Z) :=
  match v with
  | PyStr s =>
      match utf8_encode s with
      | Some b => Ok b
      | None => Exc (UnicodeEncodeError "surrogates not allowed")
      end
  | PyBytes _ => Exc (AttributeError "'bytes' object has no attribute 'encode'")
  | PyOther => Exc (AttributeError "object has no attribute 'encode'")
  end.

Definition isinstance_bytes (v : pyval) : bool :=
  match v with PyBytes _ => true | _ => false end.

(** Lines 115-121 of compat.py. *)
Definition as_bytes (v : pyval) : result (list Z) :=
  if negb (isinstance_bytes v) then encode_utf8 v
  else match v with PyBytes b => Ok b | _ => encode_utf8 v end.

(** [as_bytes(as_bytes(v))]: an exception of the inner call propagates. *)
Definition as_bytes_twice (v : pyval) : result (list Z) :=
  match as_bytes v with
  | Ok b => as_bytes (PyBytes b)
  | Exc e => Exc e
  end.

End Bytes.

(** ** [to_digit] *)
Module Digit.

(** Strings are lists of code points. [str.isdigit] accepts the
    characters of Unicode numeric type Decimal or Digit; [\d] in a [str]
    pattern and [int()] accept only the Decimal ones (general category
    Nd). The tables are those of Unicode 14.0, the database of Python
    3.11: the Decimal characters come in 66 blocks of ten, given by the
    code point of their zero, and the Digit characters that are not
    Decimal in 20 ranges. *)
Definition nd_zeros : list Z := [
  48; 1632; 1776; 1984; 2406; 2534; 2662; 2790; 2918; 3046; 3174; 3302;
  3430; 3558; 3664; 3792; 3872; 4160; 4240; 6112; 6160; 6470; 6608; 6784;
  6800; 6992; 7088; 7232; 7248; 42528; 43216; 43264; 43472; 43504; 43600;
  44016; 65296; 66720; 68912; 69734; 69872; 69942; 70096; 70384; 70736;
  70864; 71248; 71360; 71472; 71904; 72016; 72784; 73040; 73120; 92768;
  92864; 93008; 120782; 120792; 120802; 120812; 120822; 123200; 123632;
  125264; 130032]%Z.

Definition decimal_zero (c : Z) : option Z :=
  find (fun z => (z <=? c)%Z && (c <=? z + 9)%Z) nd_zeros.

Definition isdecimal_char (c : Z) : bool :=
  match decimal_zero c with Some _ => true | None => false end.

Definition digit_ranges : list (Z * Z) := [
  (178, 179); (185, 185); (4969, 4977); (6618, 6618); (8304, 8304);
  (8308, 8313); (8320, 8329); (9312, 9320); (9332, 9340); (9352, 9360);
  (9450, 9450); (9461, 9469); (9471, 9471); (10102, 10110); (10112, 10120);
  (10122, 10130); (68160, 68163); (69216, 69224); (69714, 69722);
  (127232, 127242)]%Z.

Definition numeric_digit_char (c : Z) : bool :=
  existsb (fun r => (fst r <=? c)%Z && (c <=? snd r)%Z) digit_ranges.

Definition isdigit_char (c : Z) : bool := isdecimal_char c || numeric_digit_char c.

(** [str.isdigit()]: non-empty and all characters digits. *)
Definition isdigit (s : list Z) : bool :=
  match s with [] => false | _ => forallb isdigit_char s end.

Definition decimal_value (c : Z) : Z :=
  match decimal_zero c with Some z => c - z | None => 0 end.

(** [int(s)] on a string of digit characters (the only strings
    [to_digit] passes it: they contain no sign, space or underscore):
    every character must be a decimal digit, and CPython (3.11 on, at
    its default setting) refuses a string of more than 4300 digits. *)
Definition py_int (s : list Z) : result Z :=
  if negb (forallb isdecimal_char s) || match s with [] => true | _ => false end
  then Exc (ValueError "invalid literal for int() with base 10")
  else if (4300 <? length s)%nat
  then Exc (ValueError "Exceeds the limit (4300 digits) for integer string conversion")
  else Ok (fold_left (fun acc c => acc * 10 + decimal_value c) s 0)%Z.

(** The length of the run of [\d] characters at the start of [s]. *)
Fixpoint digit_run (s : list Z) : nat :=
  match s with
  | c :: t => if isdecimal_char c then S (digit_run t) else O
  | [] => O
  end.

(** The backtracking search of [RE_NUM = (\d+).+] anchored at the start:
    the group takes [k] digits, from the greedy maximum down to one, and
    [.+] needs one character after it that is not a newline. *)
Fixpoint try_group (k : nat) (s : list Z) : option (list Z) :=
  match k with
  | O => None
  | S k' =>
      match nth_error s k with
      | Some c => if (c =? 10)%Z then try_group k' s else Some (firstn k s)
      | None => try_group k' s
      end
  end.

(** [RE_NUM.match(s)], as its first group. *)
Definition re_num_match (s : list Z) : option (list Z) :=
  try_group (digit_run s) s.

(** Lines 124-131 of compat.py. *)
Definition to_digit (value : list Z) : result Z :=
  if isdigit value then py_int value
  else match re_num_match value with
       | Some g => py_int g
       | None => Ok 0%Z
       end.

End Digit.

(** ** [get_linux_version] and the [long] marker class *)
Module Version.
Import Digit.

(** [str.split(sep)] for a one-character separator. *)
Fixpoint split_on (sep : Z) (s : list Z) : list (list Z) :=
  match s with
  | [] => [[]]
  | c :: t =>
      if (c =? sep)%Z then [] :: split_on sep t
      else match split_on sep t with
           | p :: ps => (c :: p) :: ps
           | [] => [[c]]
           end
  end.

(** The text before the first [sep], and the rest after it if [sep]
    occurs. *)
Fixpoint break_at (sep : Z) (s : list Z) : list Z * option (list Z) :=
  match s with
  | [] => ([], None)
  | c :: t =>
      if (c =? sep)%Z then ([], Some t)
      else let '(p, r) := break_at sep t in (c :: p, r)
  end.

(** [str.split(sep, maxsplit)] for a one-character separator. *)
Fixpoint split_max (sep : Z) (maxsplit : nat) (s : list Z) : list (list Z) :=
  match maxsplit with
  | O => [s]
  | S n =>
      match break_at sep s with
      | (p, Some r) => p :: split_max sep n r
      | (p, None) => [p]
      end
  end.

(** [tuple(map(f, xs))]: the elements are converted in order and the
    first exception stops the conversion. *)
Fixpoint map_result {A B} (f : A -> result B) (xs : list A) : result (list B) :=
  match xs with
  | [] => Ok []
  | x :: t =>
      match f x with
      | Ok y => match map_result f t with Ok ys => Ok (y :: ys) | Exc e => Exc e end
      | Exc e => Exc e
      end
  end.

(** Lines 134-139 of compat.py ('-' is 45, '.' is 46); [split] always
    returns at least one piece, so [[0]] exists. *)
Definition get_linux_version (release_str : list Z) : result (list Z) :=
  let ver_str := default [] (head (split_on 45 release_str)) in
  map_result to_digit (firstn 3 (split_max 46 3 ver_str)).

(** The characters of a decimal numeral. *)
Fixpoint uint_chars (d : Decimal.uint) : list Z :=
  match d with
  | Decimal.Nil => []
  | Decimal.D0 t => 48 :: uint_chars t
  | Decimal.D1 t => 49 :: uint_chars t
  | Decimal.D2 t => 50 :: uint_chars t
  | Decimal.D3 t => 51 :: uint_chars t
  | Decimal.D4 t => 52 :: uint_chars t
  | Decimal.D5 t => 53 :: uint_chars t
  | Decimal.D6 t => 54 :: uint_chars t
  | Decimal.D7 t => 55 :: uint_chars t
  | Decimal.D8 t => 56 :: uint_chars t
  | Decimal.D9 t => 57 :: uint_chars t
  end%Z.

(** [str(n)] for a Python [int]: the decimal digits without leading
    zeros, after a '-' when negative. *)
Definition int_str (n : Z) : list Z :=
  match Z.to_int n with
  | Decimal.Pos d => uint_chars d
  | Decimal.Neg d => 45%Z :: uint_chars d
  end.

(** [long.__str__] and [long.__repr__] (lines 93-97): [str(int(self))],
    and that followed by 'L' (76). *)
Definition long_str (n : Z) : list Z := int_str n.
Definition long_repr (n : Z) : list Z := long_str n ++ [76%Z].

(** The accumulation step of [int()] in [py_int]. *)
Definition int_step (acc c : Z) : Z := (acc * 10 + Digit.decimal_value c)%Z.

End Version.

(** ** A further host for concrete runs *)
Module Hosts.
Import Sock.

(** A host where the eighth system call (the close of the listener,
    after a successful accept) fails with EIO. *)
Definition env_listener_close_fails : os_env :=
  mk_env (fun n => if (n =? 7)%nat then Some 5%Z else None) 4096%Z 40000%Z.

(** A host where the bind of the listener (the second system call)
    fails with EADDRINUSE and the close of the listener that follows
    fails with EIO. *)
Definition env_bind_fails : os_env :=
  mk_env (fun n => if (n =? 1)%nat then Some 98%Z
                   else if (n =? 2)%nat then Some 5%Z else None) 4096%Z 40000%Z.

End Hosts.

(** * Properties *)

(** ** Symbolic execution of [nonblocking_socketpair] *)
Module Exec.
Import Sock Pair.

Lemma lookup_upd (m : gmap nat sock) fd s j :
  upd m fd s !! j = if decide (fd = j) then Some s else m !! j.
Proof. apply lookup_insert. Qed.

Lemma new_calls_self w n m : new_calls w (mk_world n m (w_trace w)) = [].
Proof. unfold new_calls; simpl. by rewrite Nat.sub_diag. Qed.

Lemma new_calls_refl w : new_calls w w = [].
Proof. destruct w. apply new_calls_self. Qed.

Lemma new_calls_cons w n m x tr :
  length (w_trace w) <= length tr ->
  new_calls w (mk_world n m (x :: tr)) = new_calls w (mk_world n m tr) ++ [x].
Proof.
  intros Hle. unfold new_calls; simpl.
  replace (S (length tr) - length (w_trace w))
    with (S (length tr - length (w_trace w))) by lia.
  reflexivity.
Qed.

(** Unfold the program and the socket layer in the run equation. *)
Ltac unfold_run H :=
  unfold run, nonblocking_socketpair, bind, ret, raise, try_finally, try_except,
    get_SOMAXCONN, socket, sock_bind, sock_listen, sock_getsockname, sock_connect,
    sock_accept, sock_close, sock_setblocking, on_sock, put, log in H; simpl in H.

(** Case on a scrutinee that is itself evaluated (no match inside it),
    so that the innermost step of the program is decided first. *)
Ltac atomic_case x :=
  lazymatch x with
  | context [match _ with _ => _ end] => fail
  | _ => destruct x eqn:?
  end.

(** One step of the evaluation of the run equation [H]: a descriptor
    lookup, a descriptor comparison, or the innermost undecided test (a
    host fault, an argument check). *)
Ltac run_step H :=
  match type of H with
  | context [upd _ _ _ !! _] => rewrite lookup_upd in H
  | context [decide ?P] =>
      destruct (decide P); [try (exfalso; lia) | try (exfalso; lia)]
  | context [match ?x with _ => _ end] => atomic_case x
  end; simpl in H.

(** Follow every branch of the run to its outcome. *)
Ltac exec H := repeat (run_step H); simplify_eq.

(** Reduce record projections and field updates. *)
Ltac norm :=
  cbn [w_next w_socks w_trace s_family s_type s_proto s_open s_blocking s_bound
       s_backlog s_peer fresh_sock set_open set_blocking set_bound set_backlog
       set_peer negb fst snd closes Nat.add].

(** Decide what is left in the goal and hypotheses. *)
Ltac settle :=
  norm; repeat (match goal with
  | H : context [upd _ _ _ !! _] |- _ => rewrite lookup_upd in H
  | |- context [upd _ _ _ !! _] => rewrite lookup_upd
  | H : context [decide ?P] |- _ =>
      destruct (decide P); [try (exfalso; lia) | try (exfalso; lia)]
  | |- context [decide ?P] =>
      destruct (decide P); [try (exfalso; lia) | try (exfalso; lia)]
  | H : context [match ?x with _ => _ end] |- _ => atomic_case x
  | |- context [match ?x with _ => _ end] => atomic_case x
  end; simplify_eq; norm).

(** Turn [new_calls] of a concrete trace extension into its list. *)
Ltac calls :=
  repeat match goal with
  | H : context [new_calls ?w (mk_world ?n ?m (?x :: ?tr))] |- _ =>
      rewrite (new_calls_cons w n m x tr) in H by (simpl; lia)
  | H : context [new_calls ?w (mk_world ?n ?m (w_trace ?w))] |- _ =>
      rewrite new_calls_self in H
  | |- context [new_calls ?w (mk_world ?n ?m (?x :: ?tr))] =>
      rewrite (new_calls_cons w n m x tr) by (simpl; lia)
  | |- context [new_calls ?w (mk_world ?n ?m (w_trace ?w))] =>
      rewrite new_calls_self
  | H : context [new_calls ?w ?w] |- _ => rewrite new_calls_refl in H
  | |- context [new_calls ?w ?w] => rewrite new_calls_refl
  end; cbn [app In map fst snd] in *.

(** Split the membership hypotheses of a concrete list of calls. *)
Ltac in_cases :=
  repeat match goal with
  | H : _ \/ _ |- _ => destruct H as [H|H]
  | H : _ /\ _ |- _ => destruct H
  | H : False |- _ => destruct H
  end; simplify_eq.

Ltac zfacts :=
  repeat match goal with
  | H : (_ =? _)%Z = true |- _ => apply Z.eqb_eq in H
  | H : negb (_ =? _)%Z = false |- _ => apply negb_false_iff, Z.eqb_eq in H
  end.

End Exec.

(** ** Claims about [nonblocking_socketpair] *)
Module PairSpec.
Import Sock Pair Exec.

(** C1: when [nonblocking_socketpair] returns a pair [(ssock, csock)],
    both sockets are open and their non-blocking flag is set: the
    [setblocking(False)] calls happen before the return. *)
Theorem success_both_nonblocking (family socket_type proto : Z) (env : os_env)
    (w w' : world) (ssock csock : nat) :
  run (nonblocking_socketpair family socket_type proto) env w = (Ok (ssock, csock), w') ->
  is_nonblocking w' ssock = true /\ is_nonblocking w' csock = true /\
  is_open w' ssock = true /\ is_open w' csock = true.
Proof.
  intros H. unfold_run H. unfold is_nonblocking, is_open.
  exec H; settle; auto.
Qed.

(** C2: a family other than [AF_INET] and [AF_INET6] is rejected with
    the configuration error ([ValueError]) of the family check, and the
    world is left as it was: no socket is opened, no system call made. *)
Theorem unsupported_family_rejected (family socket_type proto : Z) (env : os_env)
    (w : world) :
  family <> AF_INET -> family <> AF_INET6 ->
  run (nonblocking_socketpair family socket_type proto) env w
  = (Exc (ValueError msg_family), w).
Proof.
  intros H4 H6. unfold run, nonblocking_socketpair, bind, raise.
  apply Z.eqb_neq in H4, H6. by rewrite H4, H6.
Qed.

(** C6: with a supported family, a socket type other than [SOCK_STREAM]
    or a non-zero protocol is rejected with a configuration error
    ([ValueError]) and the world is left as it was: no socket created, no
    bind, no system call at all. *)
Theorem bad_type_or_proto_rejected (family socket_type proto : Z) (env : os_env)
    (w : world) :
  family = AF_INET \/ family = AF_INET6 ->
  socket_type <> SOCK_STREAM \/ proto <> 0%Z ->
  exists msg,
    run (nonblocking_socketpair family socket_type proto) env w
    = (Exc (ValueError msg), w).
Proof.
  intros Hf Hbad. unfold run, nonblocking_socketpair, bind, ret, raise.
  destruct Hf as [-> | ->]; simpl;
    (destruct (Z.eqb_spec socket_type SOCK_STREAM) as [Ht | Ht]; simpl;
     [destruct Hbad as [Hbad | Hp]; [done |];
      apply Z.eqb_neq in Hp; rewrite Hp; simpl; eauto | eauto]).
Qed.

(** C8: the arguments are checked in order, family, then socket type,
    then protocol, and the first failing check decides the error. *)
Theorem validation_order (family socket_type proto : Z) (env : os_env) (w : world) :
  (family <> AF_INET -> family <> AF_INET6 ->
   fst (run (nonblocking_socketpair family socket_type proto) env w)
   = Exc (ValueError msg_family)) /\
  (family = AF_INET \/ family = AF_INET6 -> socket_type <> SOCK_STREAM ->
   fst (run (nonblocking_socketpair family socket_type proto) env w)
   = Exc (ValueError msg_type)) /\
  (family = AF_INET \/ family = AF_INET6 -> socket_type = SOCK_STREAM ->
   proto <> 0%Z ->
   fst (run (nonblocking_socketpair family socket_type proto) env w)
   = Exc (ValueError msg_proto)).
Proof.
  unfold run, nonblocking_socketpair, bind, ret, raise. split; [|split].
  - intros H4 H6. apply Z.eqb_neq in H4, H6. by rewrite H4, H6.
  - intros [-> | ->] Ht; apply Z.eqb_neq in Ht; by rewrite Ht.
  - intros [-> | ->] -> Hp; apply Z.eqb_neq in Hp; by rewrite Hp.
Qed.

(** C3: when the connect of the client-side socket fails, or the accept
    on the listener fails after that connect succeeded, the call ends in
    an exception and the client-side socket has been closed: a [close()]
    call on it was made and it is no longer open. *)
Theorem client_closed_on_handshake_failure (family socket_type proto : Z)
    (env : os_env) (w w' : world) (r : result (nat * nat))
    (csock lsock : nat) (addr : string * Z) (e : Z) :
  run (nonblocking_socketpair family socket_type proto) env w = (r, w') ->
  In (SysConnect csock addr, RetErr e) (new_calls w w') \/
  (In (SysAccept lsock, RetErr e) (new_calls w w') /\
   In (SysConnect csock addr, RetOk) (new_calls w w')) ->
  (exists ex, r = Exc ex) /\ is_open w' csock = false /\
  In (SysClose csock) (map fst (new_calls w w')).
Proof.
  intros H Hfail. unfold_run H. unfold is_open.
  exec H; calls; in_cases; settle; eauto 20.
Qed.

(** C4: once the listener (the first socket the call creates, which gets
    the descriptor [w_next w]) exists, every exit path, normal return or
    exception, makes exactly one [close()] call on it, and it is no
    longer open when the call ends. *)
Theorem listener_closed_exactly_once (family socket_type proto : Z) (env : os_env)
    (w w' : world) (r : result (nat * nat)) :
  run (nonblocking_socketpair family socket_type proto) env w = (r, w') ->
  In (SysSocket family socket_type proto, RetFd (w_next w)) (new_calls w w') ->
  closes (w_next w) (new_calls w w') = 1 /\ is_open w' (w_next w) = false.
Proof.
  intros H Hl. unfold_run H. unfold is_open.
  exec H; calls; in_cases; settle; auto.
Qed.

(** C7: the only bind the call makes is of the listener, to the loopback
    literal of the family ("127.0.0.1" for [AF_INET], "::1" for
    [AF_INET6]) on port 0, and the only listen is on the listener with
    backlog [min(SOMAXCONN, 128)]; on success both calls were made and
    succeeded. *)
Theorem listener_bound_to_loopback (family socket_type proto : Z) (env : os_env)
    (w w' : world) (r : result (nat * nat)) :
  run (nonblocking_socketpair family socket_type proto) env w = (r, w') ->
  (forall fd addr rr, In (SysBind fd addr, rr) (new_calls w w') ->
     fd = w_next w /\ addr.2 = 0%Z /\
     ((family = AF_INET /\ addr.1 = "127.0.0.1"%string) \/
      (family = AF_INET6 /\ addr.1 = "::1"%string))) /\
  (forall fd backlog rr, In (SysListen fd backlog, rr) (new_calls w w') ->
     fd = w_next w /\ backlog = Z.min (SOMAXCONN env) 128) /\
  (forall p, r = Ok p ->
     exists host,
       ((family = AF_INET /\ host = "127.0.0.1"%string) \/
        (family = AF_INET6 /\ host = "::1"%string)) /\
       In (SysBind (w_next w) (host, 0%Z), RetOk) (new_calls w w') /\
       In (SysListen (w_next w) (Z.min (SOMAXCONN env) 128), RetOk) (new_calls w w')).
Proof.
  intros H. unfold_run H.
  exec H; calls; zfacts;
    (split; [intros ? ? ? ?; in_cases; unfold _LOCALHOST, _LOCALHOST_V6; eauto 10 |
     split; [intros ? ? ? ?; in_cases; eauto | intros ? ?; simplify_eq/=]]);
    unfold _LOCALHOST, _LOCALHOST_V6; eauto 20.
Qed.

(** C5 (as amended): whenever a system call fails between the creation
    of the listener and the accept (either [socket()], the bind, listen
    or getsockname of the listener, the connect or the accept), the
    cleanup has run: every socket the call created has been closed
    exactly once, whatever those close calls did. The close calls are
    not guarded, so a close failure replaces the original error: the
    caller gets the listener's close error if that close failed, else
    the client-side socket's close error if that close failed, else the
    error of the failed step. *)
Theorem handshake_failure_cleanup (family socket_type proto : Z) (env : os_env)
    (w w' : world) (r : result (nat * nat)) (c : syscall) (e : Z) :
  run (nonblocking_socketpair family socket_type proto) env w = (r, w') ->
  In (c, RetErr e) (new_calls w w') -> try_step c = true ->
  (forall fd, In (SysSocket family socket_type proto, RetFd fd) (new_calls w w') ->
     closes fd (new_calls w w') = 1) /\
  r = Exc (OSError (reported_errno e (close_error (S (w_next w)) (new_calls w w'))
                                     (close_error (w_next w) (new_calls w w')))).
Proof.
  intros H Hfail Hc. unfold_run H.
  exec H; calls; in_cases; cbn [try_step] in Hc; try discriminate;
    (split; [intros fd Hfd; in_cases; settle; auto
            | cbn [close_error reported_errno]; settle; auto]).
Qed.

End PairSpec.

(** ** Concrete runs *)
Module PairRuns.
Import Sock Pair Hosts PairSpec.

(** C5, as stated, fails: the connect fails with ECONNREFUSED (111),
    the close of the client-side socket then fails with EIO (5), and the
    caller gets the EIO error, not the connect error. *)
Lemma close_failure_masks_connect_error :
  In (SysConnect 4 ("127.0.0.1"%string, 40000%Z), RetErr 111%Z)
     (new_calls world0
        (snd (run (nonblocking_socketpair AF_INET SOCK_STREAM 0) env_close_fails world0))) /\
  fst (run (nonblocking_socketpair AF_INET SOCK_STREAM 0) env_close_fails world0)
  = Exc (OSError 5) /\
  fst (run (nonblocking_socketpair AF_INET SOCK_STREAM 0) env_close_fails world0)
  <> Exc (OSError 111).
Proof.
  split; [vm_compute; intuition | split; [reflexivity | discriminate]].
Qed.

(** A successful run on a fault-free host returns [(5, 4)] with both
    sockets non-blocking. *)
Lemma success_both_nonblocking_witness :
  run (nonblocking_socketpair AF_INET SOCK_STREAM 0) env_ok world0
  = (Ok (5%nat, 4%nat),
     snd (run (nonblocking_socketpair AF_INET SOCK_STREAM 0) env_ok world0)) /\
  (is_nonblocking
     (snd (run (nonblocking_socketpair AF_INET SOCK_STREAM 0) env_ok world0)) 5 = true /\
   is_nonblocking
     (snd (run (nonblocking_socketpair AF_INET SOCK_STREAM 0) env_ok world0)) 4 = true /\
   is_open
     (snd (run (nonblocking_socketpair AF_INET SOCK_STREAM 0) env_ok world0)) 5 = true /\
   is_open
     (snd (run (nonblocking_socketpair AF_INET SOCK_STREAM 0) env_ok world0)) 4 = true).
Proof.
  split; [vm_compute; reflexivity |].
  apply (success_both_nonblocking AF_INET SOCK_STREAM 0 env_ok world0).
  vm_compute. reflexivity.
Defined.

(** Family 1 ([AF_UNIX]) is rejected before any system call. *)
Lemma unsupported_family_rejected_witness :
  (1%Z <> AF_INET /\ 1%Z <> AF_INET6) /\
  run (nonblocking_socketpair 1 SOCK_STREAM 0) env_ok world0
  = (Exc (ValueError msg_family), world0).
Proof.
  split; [unfold AF_INET, AF_INET6; lia |].
  apply unsupported_family_rejected; unfold AF_INET, AF_INET6; lia.
Defined.

(** A datagram socket type is rejected before any system call. *)
Lemma bad_type_or_proto_rejected_witness :
  SOCK_DGRAM <> SOCK_STREAM /\
  exists msg, run (nonblocking_socketpair AF_INET6 SOCK_DGRAM 0) env_ok world0
              = (Exc (ValueError msg), world0).
Proof.
  split; [unfold SOCK_DGRAM, SOCK_STREAM; lia |].
  apply bad_type_or_proto_rejected; [right; reflexivity | left].
  unfold SOCK_DGRAM, SOCK_STREAM; lia.
Defined.

(** With everything wrong the family error wins; with a good family the
    socket type error wins over the protocol error. *)
Lemma validation_order_witness :
  fst (run (nonblocking_socketpair 1 SOCK_DGRAM 6) env_ok world0)
  = Exc (ValueError msg_family) /\
  fst (run (nonblocking_socketpair AF_INET SOCK_DGRAM 6) env_ok world0)
  = Exc (ValueError msg_type).
Proof.
  split.
  - apply (proj1 (validation_order 1 SOCK_DGRAM 6 env_ok world0));
      unfold AF_INET, AF_INET6; lia.
  - apply (proj1 (proj2 (validation_order AF_INET SOCK_DGRAM 6 env_ok world0)));
      [left; reflexivity | unfold SOCK_DGRAM, SOCK_STREAM; lia].
Defined.

(** The connect of descriptor 4 is refused: descriptor 4 ends closed. *)
Lemma client_closed_on_handshake_failure_witness :
  In (SysConnect 4 ("127.0.0.1"%string, 40000%Z), RetErr 111%Z)
     (new_calls world0
        (snd (run (nonblocking_socketpair AF_INET SOCK_STREAM 0) env_connect_fails world0))) /\
  ((exists ex, fst (run (nonblocking_socketpair AF_INET SOCK_STREAM 0)
                        env_connect_fails world0) = Exc ex) /\
   is_open (snd (run (nonblocking_socketpair AF_INET SOCK_STREAM 0)
                     env_connect_fails world0)) 4 = false /\
   In (SysClose 4)
      (map fst (new_calls world0
         (snd (run (nonblocking_socketpair AF_INET SOCK_STREAM 0)
                   env_connect_fails world0))))).
Proof.
  split; [vm_compute; intuition |].
  apply (client_closed_on_handshake_failure AF_INET SOCK_STREAM 0 env_connect_fails
           world0 _ _ 4 3 ("127.0.0.1"%string, 40000%Z) 111).
  - apply surjective_pairing.
  - left. vm_compute. intuition.
Defined.

(** The listener is descriptor 3; after the refused connect it has been
    closed once. *)
Lemma listener_closed_exactly_once_witness :
  In (SysSocket AF_INET SOCK_STREAM 0, RetFd 3)
     (new_calls world0
        (snd (run (nonblocking_socketpair AF_INET SOCK_STREAM 0) env_connect_fails world0))) /\
  (closes 3 (new_calls world0
     (snd (run (nonblocking_socketpair AF_INET SOCK_STREAM 0) env_connect_fails world0)))
   = 1 /\
   is_open (snd (run (nonblocking_socketpair AF_INET SOCK_STREAM 0)
                     env_connect_fails world0)) 3 = false).
Proof.
  split; [vm_compute; intuition |].
  apply (listener_closed_exactly_once AF_INET SOCK_STREAM 0 env_connect_fails world0 _
           (fst (run (nonblocking_socketpair AF_INET SOCK_STREAM 0)
                     env_connect_fails world0))).
  - apply surjective_pairing.
  - vm_compute. intuition.
Defined.

(** An IPv6 run on a fault-free host binds "::1" port 0 and listens
    with backlog 128. *)
Lemma listener_bound_to_loopback_witness :
  exists host,
    ((AF_INET6 = AF_INET /\ host = "127.0.0.1"%string) \/
     (AF_INET6 = AF_INET6 /\ host = "::1"%string)) /\
    In (SysBind 3 (host, 0%Z), RetOk)
       (new_calls world0
          (snd (run (nonblocking_socketpair AF_INET6 SOCK_STREAM 0) env_ok world0))) /\
    In (SysListen 3 (Z.min (SOMAXCONN env_ok) 128), RetOk)
       (new_calls world0
          (snd (run (nonblocking_socketpair AF_INET6 SOCK_STREAM 0) env_ok world0))).
Proof.
  destruct (listener_bound_to_loopback AF_INET6 SOCK_STREAM 0 env_ok world0
    (snd (run (nonblocking_socketpair AF_INET6 SOCK_STREAM 0) env_ok world0))
    (fst (run (nonblocking_socketpair AF_INET6 SOCK_STREAM 0) env_ok world0))
    (surjective_pairing _)) as [_ [_ Hok]].
  apply (Hok (5%nat, 4%nat)). vm_compute. reflexivity.
Defined.

(** The bind of the listener fails with EADDRINUSE (98), and the close
    of the listener in the [finally] clause then fails with EIO (5): the
    listener is closed once and the caller gets EIO. *)
Lemma handshake_failure_cleanup_witness :
  In (SysBind 3 ("127.0.0.1"%string, 0%Z), RetErr 98%Z)
     (new_calls world0
        (snd (run (nonblocking_socketpair AF_INET SOCK_STREAM 0) env_bind_fails world0))) /\
  fst (run (nonblocking_socketpair AF_INET SOCK_STREAM 0) env_bind_fails world0)
  = Exc (OSError 5) /\
  ((forall fd, In (SysSocket AF_INET SOCK_STREAM 0, RetFd fd)
                  (new_calls world0 (snd (run (nonblocking_socketpair AF_INET SOCK_STREAM 0)
                                              env_bind_fails world0))) ->
      closes fd (new_calls world0 (snd (run (nonblocking_socketpair AF_INET SOCK_STREAM 0)
                                            env_bind_fails world0))) = 1) /\
   fst (run (nonblocking_socketpair AF_INET SOCK_STREAM 0) env_bind_fails world0)
   = Exc (OSError (reported_errno 98
       (close_error 4 (new_calls world0
          (snd (run (nonblocking_socketpair AF_INET SOCK_STREAM 0) env_bind_fails world0))))
       (close_error 3 (new_calls world0
          (snd (run (nonblocking_socketpair AF_INET SOCK_STREAM 0) env_bind_fails world0))))))).
Proof.
  assert (In (SysBind 3 ("127.0.0.1"%string, 0%Z), RetErr 98%Z)
     (new_calls world0
        (snd (run (nonblocking_socketpair AF_INET SOCK_STREAM 0) env_bind_fails world0))))
    as Hb by (vm_compute; intuition).
  split; [exact Hb | split; [vm_compute; reflexivity |]].
  apply (handshake_failure_cleanup AF_INET SOCK_STREAM 0 env_bind_fails world0 _ _
           (SysBind 3 ("127.0.0.1"%string, 0%Z)) 98).
  - apply surjective_pairing.
  - exact Hb.
  - reflexivity.
Defined.

End PairRuns.

(** ** Claims about [as_bytes] and [to_digit] *)
Module ValueSpec.
Import Bytes Digit.

(** C9: [as_bytes] returns a [bytes] argument unchanged, and
    [as_bytes(as_bytes(v))] has the outcome of [as_bytes(v)] for every
    value: the same bytes, or the same exception. *)
Theorem as_bytes_idempotent :
  (forall b, as_bytes (PyBytes b) = Ok b) /\
  (forall v, as_bytes_twice v = as_bytes v).
Proof.
  split; [reflexivity |].
  intros [s | b |]; unfold as_bytes_twice, as_bytes; simpl; try reflexivity.
  unfold encode_utf8. by destruct (utf8_encode s).
Qed.

(** C10 fails: "²" (U+00B2, SUPERSCRIPT TWO) passes [str.isdigit()],
    is not a decimal digit, and [int("²")] raises [ValueError], which
    [to_digit] lets through. *)
Theorem to_digit_superscript_two_raises :
  isdigit [178%Z] = true /\ isdecimal_char 178 = false /\
  to_digit [178%Z] = Exc (ValueError "invalid literal for int() with base 10").
Proof. split; [reflexivity | split; reflexivity]. Qed.

End ValueSpec.



(** ** Lemmas on [to_digit] and on the decimal numerals of [str(int)] *)
Module DigitFacts.
Import Digit Version.
Local Open Scope Z_scope.

Lemma uint_chars_decimal d : forallb isdecimal_char (uint_chars d) = true.
Proof. induction d; simpl; auto. Qed.

Lemma uint_chars_range d x : In x (uint_chars d) -> 48 <= x <= 57.
Proof. induction d; simpl; intros H; try tauto; destruct H as [<-|H]; auto; lia. Qed.

Lemma fold_step_acc d (acc : positive) :
  fold_left int_step (uint_chars d) (Zpos acc) = Zpos (Pos.of_uint_acc d acc).
Proof.
  revert acc; induction d; intros acc; simpl; try reflexivity;
  unfold int_step at 2; rewrite <- IHd; f_equal;
  vm_compute decimal_value; rewrite ?Pos2Z.inj_add, ?Pos2Z.inj_mul; lia.
Qed.

Lemma fold_step0 d :
  fold_left int_step (uint_chars d) 0 = Z.of_N (Pos.of_uint d).
Proof.
  induction d; simpl; try reflexivity;
  unfold int_step at 2; vm_compute decimal_value; cbn -[fold_left];
  first [exact IHd | rewrite <- fold_step_acc; reflexivity].
Qed.

Lemma uint_chars_nil d : uint_chars d = [] -> d = Decimal.Nil.
Proof. destruct d; simpl; congruence. Qed.

Lemma decimal_digit l : forallb isdecimal_char l = true -> forallb isdigit_char l = true.
Proof.
  induction l as [|x l IH]; simpl; auto; intros H.
  apply andb_true_iff in H as [H1 H2]; rewrite IH by auto; unfold isdigit_char; rewrite H1; auto.
Qed.

Lemma isdigit_false l : forallb isdigit_char l = false -> isdigit l = false.
Proof. destruct l; auto. Qed.

Lemma py_int_uint d : d <> Decimal.Nil -> (length (uint_chars d) <= 4300)%nat ->
  py_int (uint_chars d) = Ok (Z.of_N (Pos.of_uint d)).
Proof.
  intros Hd Hl. unfold py_int. rewrite uint_chars_decimal, <- fold_step0.
  replace (4300 <? length (uint_chars d))%nat with false
    by (symmetry; apply Nat.ltb_ge; lia).
  destruct (uint_chars d) eqn:E; [apply uint_chars_nil in E; congruence|].
  reflexivity.
Qed.

Lemma to_digit_uint d : d <> Decimal.Nil -> (length (uint_chars d) <= 4300)%nat ->
  to_digit (uint_chars d) = Ok (Z.of_N (Pos.of_uint d)).
Proof.
  intros Hd Hl. unfold to_digit.
  assert (isdigit (uint_chars d) = true) as ->.
  { pose proof (decimal_digit _ (uint_chars_decimal d)).
    destruct (uint_chars d) eqn:E; [apply uint_chars_nil in E; congruence|]; auto. }
  apply py_int_uint; auto.
Qed.

Lemma int_str_pos n : 0 < n -> int_str n = uint_chars (Pos.to_uint (Z.to_pos n)).
Proof. destruct n; simpl; lia || reflexivity. Qed.

Lemma int_str_nonneg n : 0 <= n ->
  int_str n <> [] /\ (forall x, In x (int_str n) -> 48 <= x <= 57) /\
  ((length (int_str n) <= 4300)%nat -> to_digit (int_str n) = Ok n).
Proof.
  intros Hn. destruct (Z.eq_dec n 0) as [->|Hn0].
  { split; [discriminate|split; [simpl; intros x [<-|[]]; lia|reflexivity]]. }
  rewrite int_str_pos by lia. split; [|split].
  - intros E. apply uint_chars_nil in E. apply (DecimalPos.Unsigned.to_uint_nonnil _ E).
  - apply uint_chars_range.
  - intros Hl. rewrite to_digit_uint by (apply DecimalPos.Unsigned.to_uint_nonnil || exact Hl).
    rewrite DecimalPos.Unsigned.of_to. destruct n; simpl; lia || reflexivity.
Qed.

Lemma try_group_hit k s c : (0 < k)%nat -> nth_error s k = Some c -> c <> 10 ->
  try_group k s = Some (firstn k s).
Proof.
  destruct k; [lia|]; intros _ Hk Hc; cbn [try_group]; rewrite Hk.
  destruct (Z.eqb_spec c 10); congruence.
Qed.

Lemma digit_run_app ds c rest : forallb isdecimal_char ds = true ->
  isdecimal_char c = false -> digit_run (ds ++ c :: rest) = length ds.
Proof.
  induction ds as [|x ds IH]; simpl; intros H Hc; [rewrite Hc; auto|].
  apply andb_true_iff in H as [-> H]; rewrite IH; auto.
Qed.

Lemma to_digit_prefix ds c rest : ds <> [] -> forallb isdecimal_char ds = true ->
  isdigit_char c = false -> c <> 10 -> to_digit (ds ++ c :: rest) = py_int ds.
Proof.
  intros Hne Hds Hc Hnl. unfold to_digit.
  rewrite isdigit_false.
  2:{ rewrite forallb_app; simpl; rewrite Hc, andb_false_r; reflexivity. }
  unfold re_num_match. unfold isdigit_char in Hc; apply orb_false_iff in Hc as [Hc _].
  rewrite digit_run_app by auto.
  rewrite (try_group_hit _ _ c).
  - rewrite firstn_app, firstn_all, Nat.sub_diag, app_nil_r; reflexivity.
  - destruct ds; simpl; [congruence|lia].
  - rewrite nth_error_app2, Nat.sub_diag by lia; reflexivity.
  - auto.
Qed.

Lemma decimal_value_nonneg c : 0 <= decimal_value c.
Proof.
  unfold decimal_value, decimal_zero.
  destruct (find _ _) eqn:E; [|lia].
  apply find_some in E as [_ E]; apply andb_true_iff in E as [E _]; lia.
Qed.

Lemma fold_nonneg l a : 0 <= a -> 0 <= fold_left int_step l a.
Proof.
  revert a; induction l; simpl; auto; intros a0 H; apply IHl.
  pose proof (decimal_value_nonneg a); unfold int_step; lia.
Qed.

Lemma py_int_nonneg g v : py_int g = Ok v -> 0 <= v.
Proof.
  unfold py_int; destruct (_ || _); [intros H; inversion H|].
  destruct (_ <? _)%nat; intros H; inversion H; apply fold_nonneg; lia.
Qed.

Lemma to_digit_nonneg s v : to_digit s = Ok v -> 0 <= v.
Proof.
  unfold to_digit; destruct (isdigit s); [apply py_int_nonneg|].
  destruct (re_num_match s); [apply py_int_nonneg|intros H; inversion H; lia].
Qed.

Lemma py_int_ok g : g <> [] -> forallb isdecimal_char g = true -> (length g <= 4300)%nat ->
  exists v, py_int g = Ok v.
Proof.
  intros H Hd Hl; unfold py_int; rewrite Hd.
  replace (4300 <? length g)%nat with false by (symmetry; apply Nat.ltb_ge; lia).
  destruct g; [congruence|]; simpl; eauto.
Qed.

Lemma digit_run_prefix s k : (k <= digit_run s)%nat ->
  forallb isdecimal_char (firstn k s) = true.
Proof.
  revert k; induction s as [|x s IH]; intros [|k]; simpl; auto.
  destruct (isdecimal_char x) eqn:E; simpl; [|lia]; intros; rewrite IH; auto; lia.
Qed.

Lemma try_group_some k s g : try_group k s = Some g ->
  exists j, (1 <= j <= k)%nat /\ (j < length s)%nat /\ g = firstn j s.
Proof.
  induction k as [|k IH]; cbn [try_group]; [discriminate|].
  destruct (nth_error s (S k)) eqn:E.
  - destruct (z =? 10); intros H.
    + destruct (IH H) as (j & ? & ? & ?); exists j; split; [lia|auto].
    + inversion H; subst. exists (S k); split; [lia|split; auto].
      apply nth_error_Some; congruence.
  - intros H; destruct (IH H) as (j & ? & ? & ?); exists j; split; [lia|auto].
Qed.

Lemma digit_decimal l :
  forallb isdigit_char l = true ->
  forallb (fun c => negb (numeric_digit_char c) || isdecimal_char c) l = true ->
  forallb isdecimal_char l = true.
Proof.
  induction l as [|x l IH]; simpl; auto; unfold isdigit_char.
  intros H1 H2; apply andb_true_iff in H1 as [A B]; apply andb_true_iff in H2 as [C D].
  rewrite IH by auto. destruct (isdecimal_char x), (numeric_digit_char x); auto.
Qed.

Lemma to_digit_decimal ds : ds <> [] -> forallb isdecimal_char ds = true ->
  to_digit ds = py_int ds.
Proof.
  intros Hne Hds. unfold to_digit.
  assert (isdigit ds = true) as ->; [|reflexivity].
  destruct ds; [congruence|]. apply decimal_digit; auto.
Qed.

End DigitFacts.

(** ** Lemmas on the splitting done by [get_linux_version] *)
Module VersionFacts.
Import Digit Version DigitFacts.
Local Open Scope Z_scope.

Lemma map_result_ok {A B} (f : A -> result B) xs ys : map_result f xs = Ok ys ->
  length ys = length xs /\ forall y, In y ys -> exists x, In x xs /\ f x = Ok y.
Proof.
  revert ys; induction xs as [|x xs IH]; simpl; intros ys H.
  - inversion H; subst; split; auto; intros _ [].
  - destruct (f x) eqn:E; [|discriminate].
    destruct (map_result f xs) eqn:E2; [|discriminate]; inversion H; subst.
    destruct (IH _ eq_refl) as [IH1 IH2]; split; simpl; [lia|].
    intros y [<-|Hy]; [eauto|]. destruct (IH2 y Hy) as (x' & ? & ?); eauto.
Qed.

Lemma split_max_nonempty sep n s : split_max sep n s <> [].
Proof. destruct n; simpl; [|destruct (break_at sep s) as [p [r|]]]; discriminate. Qed.

Lemma head_split_on sep s : head (split_on sep s) = Some (fst (break_at sep s)).
Proof.
  induction s as [|c s IH]; simpl; auto.
  destruct (c =? sep); auto.
  destruct (split_on sep s); simpl in *; [discriminate|].
  inversion IH; subst; destruct (break_at sep s); reflexivity.
Qed.

Lemma break_at_free sep a b : ~ In sep a ->
  break_at sep (a ++ b) = (a ++ fst (break_at sep b), snd (break_at sep b)).
Proof.
  induction a as [|x a IH]; simpl; intros H.
  - destruct (break_at sep b); reflexivity.
  - destruct (Z.eqb_spec x sep); [tauto|]. rewrite IH by tauto; reflexivity.
Qed.

Lemma break_at_sep sep a b : ~ In sep a -> break_at sep (a ++ sep :: b) = (a, Some b).
Proof.
  intros H; rewrite break_at_free by auto; simpl; rewrite Z.eqb_refl, app_nil_r; reflexivity.
Qed.

Lemma break_at_none sep a : ~ In sep a -> break_at sep a = (a, None).
Proof.
  intros H; rewrite <- (app_nil_r a), break_at_free by auto; simpl; reflexivity.
Qed.

Lemma int_str_no_sep n sep : 0 <= n -> (sep < 48 \/ 57 < sep) -> ~ In sep (int_str n).
Proof.
  intros Hn Hs Hi; destruct (int_str_nonneg n Hn) as (_ & Hr & _); apply Hr in Hi; lia.
Qed.

End VersionFacts.

(** ** Lemmas on UTF-8 encoding *)
Module BytesFacts.
Import Bytes.
Local Open Scope Z_scope.

Lemma log2_byte x : 0 <= x < 256 -> Z.log2 x < 8.
Proof.
  intros Hx; destruct (Z.eq_dec x 0) as [->|Hn]; [reflexivity|].
  apply Z.log2_lt_pow2; lia.
Qed.

Lemma byte_lor a x : 0 <= a < 256 -> 0 <= x < 256 -> 0 <= Z.lor a x < 256.
Proof.
  intros Ha Hx. assert (0 <= Z.lor a x) by (apply Z.lor_nonneg; lia).
  split; auto. destruct (Z.eq_dec (Z.lor a x) 0) as [->|Hn]; [lia|].
  apply (Z.log2_lt_pow2 _ 8); [lia|].
  rewrite Z.log2_lor by lia. apply Z.max_lub_lt; apply log2_byte; lia.
Qed.

Lemma low6 x : 0 <= Z.land x 63 < 64.
Proof.
  change 63 with (Z.ones 6). rewrite Z.land_ones by lia.
  apply Z.mod_pos_bound; reflexivity.
Qed.

Lemma shiftr_bound c k m : 0 <= c -> 0 <= k -> c < m * 2 ^ k -> 0 <= Z.shiftr c k < m.
Proof.
  intros Hc Hk Hm. rewrite Z.shiftr_div_pow2 by auto.
  assert (0 < 2 ^ k) by (apply Z.pow_pos_nonneg; lia).
  split; [apply Z.div_pos; lia|apply Z.div_lt_upper_bound; lia].
Qed.

Lemma utf8_encode_char_ok c : 0 <= c <= 1114111 -> ~ (55296 <= c <= 57343) ->
  exists bs, utf8_encode_char c = Some bs /\
    Forall (fun x => 0 <= x <= 255) bs /\ (1 <= length bs <= 4)%nat.
Proof.
  intros Hc Hs. unfold utf8_encode_char.
  assert (forall a x, 0 <= a < 256 -> 0 <= x < 256 -> 0 <= Z.lor a x <= 255) as L
    by (intros; pose proof (byte_lor a x); lia).
  assert (forall a y, 0 <= a < 256 -> 0 <= Z.lor a (Z.land y 63) <= 255) as L6
    by (intros; apply L; [lia|pose proof (low6 y); lia]).
  destruct (Z.ltb_spec c 128).
  { eexists; split; [reflexivity|split; [repeat first [apply List.Forall_nil | apply List.Forall_cons]; lia|simpl; lia]]. }
  destruct (Z.ltb_spec c 2048).
  { eexists; split; [reflexivity|split; [|simpl; lia]].
    repeat first [apply List.Forall_nil | apply List.Forall_cons]; [apply L; [lia|]|apply L6; lia].
    pose proof (shiftr_bound c 6 32); lia. }
  destruct (Z.leb_spec 55296 c), (Z.leb_spec c 57343); simpl; try lia.
  all: destruct (Z.ltb_spec c 65536).
  all: first
    [ eexists; split; [reflexivity|split; [|simpl; lia]];
      repeat first [apply List.Forall_nil | apply List.Forall_cons]; try (apply L6; lia); apply L; [lia|];
      first [ pose proof (shiftr_bound c 12 16); lia
            | pose proof (shiftr_bound c 18 5); lia ] ].
Qed.

Lemma utf8_encode_ok s : Forall (fun c => 0 <= c <= 1114111 /\ ~ (55296 <= c <= 57343)) s ->
  exists b, utf8_encode s = Some b /\ Forall (fun x => 0 <= x <= 255) b /\
    (length s <= length b <= 4 * length s)%nat.
Proof.
  induction 1 as [|c s [Hc Hs] _ (b & Eb & Fb & Lb)]; simpl.
  - exists []; split; auto.
  - destruct (utf8_encode_char_ok c Hc Hs) as (bs & E & F & L).
    rewrite E, Eb. exists (bs ++ b); split; [reflexivity|split].
    + apply Forall_app; auto.
    + rewrite length_app; lia.
Qed.

Lemma as_bytes_str s : as_bytes (PyStr s) =
  match utf8_encode s with
  | Some b => Ok b
  | None => Exc (UnicodeEncodeError "surrogates not allowed")
  end.
Proof. reflexivity. Qed.

Lemma utf8_encode_char_surrogate c : 55296 <= c <= 57343 -> utf8_encode_char c = None.
Proof.
  intros Hc; unfold utf8_encode_char.
  destruct (Z.ltb_spec c 128); [lia|]; destruct (Z.ltb_spec c 2048); [lia|].
  destruct (Z.leb_spec 55296 c), (Z.leb_spec c 57343); simpl; lia || reflexivity.
Qed.

End BytesFacts.

(** ** Further properties of [to_digit], [long], [get_linux_version] and
    [as_bytes] *)
Module ValueFacts.
Import Digit Version Bytes DigitFacts VersionFacts BytesFacts.
Local Open Scope Z_scope.

(** [to_digit] raises only on a digit that is not decimal: when every
    character of the string that [str.isdigit] accepts is also a decimal
    digit, and the string has at most 4300 characters (longer digit
    strings exceed the limit of [int()]), [to_digit] returns a
    non-negative integer. *)
Theorem to_digit_no_error s :
  (length s <= 4300)%nat ->
  forallb (fun c => negb (numeric_digit_char c) || isdecimal_char c) s = true ->
  exists n, to_digit s = Ok n /\ 0 <= n.
Proof.
  intros Hlen Hs.
  assert (forall v, to_digit s = Ok v -> exists n, to_digit s = Ok n /\ 0 <= n) as K.
  { intros v Hv; exists v; split; auto; eapply to_digit_nonneg; eauto. }
  unfold to_digit in *; destruct (isdigit s) eqn:Hd.
  - destruct (py_int_ok s) as [v Hv]; [destruct s; discriminate|
      apply digit_decimal; auto; destruct s; auto; discriminate|exact Hlen|].
    apply (K v); rewrite Hv; reflexivity.
  - destruct (re_num_match s) as [g|] eqn:Hm; [|apply (K 0); reflexivity].
    unfold re_num_match in Hm; apply try_group_some in Hm as (j & Hj & Hl & ->).
    destruct (py_int_ok (firstn j s)) as [v Hv].
    + intros E; apply (f_equal (@length _)) in E; rewrite firstn_length_le in E by lia.
      simpl in E; lia.
    + apply digit_run_prefix; lia.
    + rewrite firstn_length_le by lia; lia.
    + apply (K v); rewrite Hv; reflexivity.
Qed.

(** Leading decimal digits followed by a character that is neither a
    digit nor a newline: [to_digit] ignores that character and everything
    after it, as [RE_NUM] takes the whole run of digits as its group. *)
Theorem to_digit_leading_digits ds c rest :
  ds <> [] -> forallb isdecimal_char ds = true -> isdigit_char c = false -> c <> 10 ->
  to_digit (ds ++ c :: rest) = to_digit ds.
Proof.
  intros Hne Hds Hc Hnl. rewrite to_digit_prefix by auto.
  symmetry; apply to_digit_decimal; auto.
Qed.

(** Decimal digits followed by a newline: [.+] does not match a newline,
    so the group of [RE_NUM] backtracks and drops the last digit; a single
    digit followed by a newline gives 0. *)
Theorem to_digit_trailing_newline ds d :
  forallb isdecimal_char (ds ++ [d]) = true ->
  to_digit (ds ++ [d; 10]) = match ds with [] => Ok 0 | _ => to_digit ds end.
Proof.
  intros H. rewrite forallb_app in H; apply andb_true_iff in H as [Hds Hd].
  cbn [forallb] in Hd; rewrite andb_true_r in Hd.
  assert (d <> 10) as Hnl by (intros ->; discriminate).
  unfold to_digit at 1.
  rewrite isdigit_false.
  2:{ rewrite forallb_app; cbn [forallb].
      replace (isdigit_char 10) with false by reflexivity.
      rewrite !andb_false_r; reflexivity. }
  unfold re_num_match.
  replace (ds ++ [d; 10]) with ((ds ++ [d]) ++ 10 :: []) by (rewrite <- app_assoc; reflexivity).
  rewrite digit_run_app by (auto; rewrite forallb_app; cbn [forallb]; rewrite Hds, Hd; reflexivity).
  rewrite length_app, Nat.add_1_r. cbn [try_group length].
  rewrite nth_error_app2 by (rewrite length_app; simpl; lia).
  rewrite length_app, Nat.add_1_r, Nat.sub_diag; cbn [nth_error]. rewrite Z.eqb_refl.
  rewrite <- app_assoc; cbn [app].
  destruct ds as [|x ds']; [reflexivity|].
  rewrite (try_group_hit _ _ d).
  - rewrite firstn_app, firstn_all, Nat.sub_diag, app_nil_r.
    symmetry; apply to_digit_decimal; [discriminate|auto].
  - simpl; lia.
  - rewrite nth_error_app2, Nat.sub_diag by lia; reflexivity.
  - auto.
Qed.

(** A string whose first character is not a digit (a sign, a space, a
    letter) gives 0: it is not all digits and [RE_NUM] does not match. *)
Theorem to_digit_nondigit_first c s : isdigit_char c = false -> to_digit (c :: s) = Ok 0.
Proof.
  intros Hc. unfold to_digit, re_num_match. cbn [isdigit forallb]. rewrite Hc.
  unfold isdigit_char in Hc; apply orb_false_iff in Hc as [Hc _].
  cbn [andb digit_run]. rewrite Hc. reflexivity.
Qed.

(** [to_digit(str(long(n)))] is [n] for a non-negative [n] of at most
    4300 digits (the limit of CPython's [str] and [int] conversions). *)
Theorem long_str_round_trip n : 0 <= n -> (length (long_str n) <= 4300)%nat ->
  to_digit (long_str n) = Ok n.
Proof. intros Hn Hl; apply int_str_nonneg; auto. Qed.

(** [to_digit(repr(long(n)))] is [n] as well: the trailing 'L' of
    [__repr__] is not a digit and is dropped by [RE_NUM]. *)
Theorem long_repr_round_trip n : 0 <= n -> (length (long_str n) <= 4300)%nat ->
  to_digit (long_repr n) = Ok n.
Proof.
  intros Hn Hl. unfold long_repr, long_str in *.
  destruct (int_str_nonneg n) as (Hne & Hr & Hv); [lia|].
  destruct (Z.eq_dec n 0) as [->|Hn0]; [reflexivity|].
  rewrite int_str_pos in * by lia.
  rewrite to_digit_prefix; [|auto|apply uint_chars_decimal|reflexivity|discriminate].
  rewrite py_int_uint by (apply DecimalPos.Unsigned.to_uint_nonnil || exact Hl).
  rewrite DecimalPos.Unsigned.of_to. destruct n; simpl; lia || reflexivity.
Qed.


(* get_linux_version *)

(** When [get_linux_version] returns, the tuple has one to three
    components, each a non-negative integer. *)
Theorem get_linux_version_shape s v : get_linux_version s = Ok v ->
  (1 <= length v <= 3)%nat /\ Forall (fun x => 0 <= x) v.
Proof.
  unfold get_linux_version; intros H; apply map_result_ok in H as [Hl Hin].
  split.
  - rewrite Hl, length_firstn.
    pose proof (split_max_nonempty 46 3 (default [] (head (split_on 45 s)))) as Hne.
    destruct (split_max 46 3 (default [] (head (split_on 45 s)))) as [|p ps];
      [congruence|]; cbn [length]; lia.
  - apply List.Forall_forall; intros x Hx; destruct (Hin x Hx) as (? & _ & E).
    eapply to_digit_nonneg; eauto.
Qed.

(** Everything from the first '-' of the release string on is ignored. *)
Theorem get_linux_version_dash a b : ~ In 45 a ->
  get_linux_version (a ++ 45 :: b) = get_linux_version a.
Proof.
  intros H; unfold get_linux_version; rewrite !head_split_on, break_at_sep, break_at_none by auto.
  reflexivity.
Qed.

(** A release string "a.b.c" of three non-negative integers, followed
    by nothing, by a '-' suffix or by a further '.' component, gives the
    tuple [(a, b, c)] (numbers of at most 4300 digits, the limit of
    CPython's conversions). *)
Theorem get_linux_version_int_str a b c tail :
  0 <= a -> 0 <= b -> 0 <= c ->
  (length (int_str a) <= 4300)%nat -> (length (int_str b) <= 4300)%nat ->
  (length (int_str c) <= 4300)%nat ->
  (tail = [] \/ exists t, tail = 45 :: t \/ tail = 46 :: t) ->
  get_linux_version (int_str a ++ 46 :: int_str b ++ 46 :: int_str c ++ tail) = Ok [a; b; c].
Proof.
  intros Ha Hb Hc La Lb Lc Ht.
  assert (forall n, 0 <= n -> (length (int_str n) <= 4300)%nat ->
            ~ In 45 (int_str n) /\ ~ In 46 (int_str n) /\ to_digit (int_str n) = Ok n) as D.
  { intros n Hn Hl; split; [|split]; [apply int_str_no_sep; lia..|apply int_str_nonneg; auto]. }
  destruct (D a Ha La) as (Ma & Pa & Va), (D b Hb Lb) as (Mb & Pb & Vb),
    (D c Hc Lc) as (Mc & Pc & Vc).
  assert (exists rest, (rest = [] \/ exists r, rest = 46 :: r) /\
     default [] (head (split_on 45 (int_str a ++ 46 :: int_str b ++ 46 :: int_str c ++ tail)))
     = int_str a ++ 46 :: int_str b ++ 46 :: int_str c ++ rest) as (rest & Hrest & E).
  { rewrite head_split_on; simpl.
    rewrite break_at_free by auto; simpl. rewrite break_at_free by auto; simpl.
    rewrite break_at_free by auto.
    destruct Ht as [->|(t & [->| ->])]; simpl.
    - exists []; auto.
    - exists []; auto.
    - destruct (break_at 45 t) as [p r]; eexists; split; [right; eauto|reflexivity]. }
  unfold get_linux_version; rewrite E; cbn [split_max].
  rewrite break_at_sep by auto; cbn [split_max]. rewrite break_at_sep by auto; cbn [split_max].
  destruct Hrest as [->|(r & ->)].
  - rewrite app_nil_r, break_at_none by auto; cbn. rewrite Va, Vb, Vc; reflexivity.
  - rewrite break_at_sep by auto; cbn. rewrite Va, Vb, Vc; reflexivity.
Qed.

(** An ASCII [str] is encoded to the same sequence of code units. *)
Theorem as_bytes_ascii s : Forall (fun c => 0 <= c < 128) s -> as_bytes (PyStr s) = Ok s.
Proof.
  intros H; rewrite as_bytes_str.
  assert (utf8_encode s = Some s) as ->; [|reflexivity].
  induction H as [|c s Hc _ IH]; simpl; auto.
  unfold utf8_encode_char at 1; destruct (Z.ltb_spec c 128); [|lia].
  rewrite IH; reflexivity.
Qed.

(** A [str] without surrogates is encoded without error into octets
    (each in [0, 255]), at least one and at most four per character. *)
Theorem as_bytes_str_ok s :
  Forall (fun c => 0 <= c <= 1114111 /\ ~ (55296 <= c <= 57343)) s ->
  exists b, as_bytes (PyStr s) = Ok b /\ Forall (fun x => 0 <= x <= 255) b /\
    (length s <= length b <= 4 * length s)%nat.
Proof.
  intros H; destruct (utf8_encode_ok s H) as (b & E & F & L).
  exists b; rewrite as_bytes_str, E; auto.
Qed.

(** A [str] holding a surrogate code point makes [as_bytes] raise
    [UnicodeEncodeError]. *)
Theorem as_bytes_surrogate s c : In c s -> 55296 <= c <= 57343 ->
  as_bytes (PyStr s) = Exc (UnicodeEncodeError "surrogates not allowed").
Proof.
  intros Hin Hc; rewrite as_bytes_str.
  assert (utf8_encode s = None) as ->; [|reflexivity].
  induction s as [|x s IH]; simpl in *; [tauto|].
  destruct Hin as [->|Hin].
  - rewrite utf8_encode_char_surrogate by auto; reflexivity.
  - rewrite IH by auto; destruct (utf8_encode_char x); reflexivity.
Qed.

End ValueFacts.

(** ** Further properties of [nonblocking_socketpair] *)
Module PairFacts.
Import Sock Pair Exec.

(** On success the call makes exactly ten system calls, in this order:
    the listener is created (descriptor [w_next w]), bound to the
    loopback address on port 0, put to listen and asked its name; the
    client socket is created and connected to the port the OS assigned;
    the accept gives the server-side socket; the listener is closed; the
    client socket, then the server-side socket, are made non-blocking.
    Three descriptors are allocated. *)
Theorem socketpair_success_trace (family socket_type proto : Z) (env : os_env)
    (w w' : world) (ssock csock : nat) :
  run (nonblocking_socketpair family socket_type proto) env w = (Ok (ssock, csock), w') ->
  let l := w_next w in
  csock = S l /\ ssock = S (S l) /\ w_next w' = S (S (S l)) /\
  exists host,
    ((family = AF_INET /\ host = "127.0.0.1"%string) \/
     (family = AF_INET6 /\ host = "::1"%string)) /\
    new_calls w w' =
      [(SysSocket family socket_type proto, RetFd l);
       (SysBind l (host, 0%Z), RetOk);
       (SysListen l (Z.min (SOMAXCONN env) 128), RetOk);
       (SysGetsockname l, RetOk);
       (SysSocket family socket_type proto, RetFd (S l));
       (SysConnect (S l) (host, ephemeral_port env), RetOk);
       (SysAccept l, RetFd (S (S l)));
       (SysClose l, RetOk);
       (SysSetblocking (S l) false, RetOk);
       (SysSetblocking (S (S l)) false, RetOk)].
Proof.
  intros H. unfold_run H.
  exec H; calls; zfacts; settle; unfold _LOCALHOST, _LOCALHOST_V6;
    (split; [reflexivity|split; [reflexivity|split; [reflexivity|]]]); eauto 10.
Qed.

(** Whatever the outcome, the call allocates at most three descriptors
    and leaves every socket it did not create as it was. *)
Theorem socketpair_frame (family socket_type proto : Z) (env : os_env)
    (w w' : world) (r : result (nat * nat)) :
  run (nonblocking_socketpair family socket_type proto) env w = (r, w') ->
  w_next w <= w_next w' <= w_next w + 3 /\
  forall fd, fd < w_next w \/ w_next w' <= fd -> w_socks w' !! fd = w_socks w !! fd.
Proof.
  intros H. unfold_run H.
  exec H; norm; (split; [lia|]); intros fd Hfd; settle; auto.
Qed.

(** Once the accept has returned the server-side socket, a later
    exception (the close of the listener, or a [setblocking] call,
    failing) leaves both sockets of the pair open: neither is closed
    before the exception reaches the caller. *)
Theorem socketpair_pair_open_after_accept (family socket_type proto : Z) (env : os_env)
    (w w' : world) (ex : exn) (lsock s : nat) :
  run (nonblocking_socketpair family socket_type proto) env w = (Exc ex, w') ->
  In (SysAccept lsock, RetFd s) (new_calls w w') ->
  is_open w' s = true /\ is_open w' (S (w_next w)) = true.
Proof.
  intros H Ha. unfold_run H. unfold is_open.
  exec H; calls; in_cases; settle; auto.
Qed.

(** An exception raised before an accept succeeded leaves none of the
    sockets the call created open. *)
Theorem socketpair_failure_closes_all (family socket_type proto : Z) (env : os_env)
    (w w' : world) (ex : exn) :
  run (nonblocking_socketpair family socket_type proto) env w = (Exc ex, w') ->
  (forall lsock s, ~ In (SysAccept lsock, RetFd s) (new_calls w w')) ->
  forall fd, w_next w <= fd < w_next w' -> is_open w' fd = false.
Proof.
  intros H Hna. unfold_run H. unfold is_open.
  exec H; calls; intros fd Hfd; cbn [w_next] in Hfd; try lia; settle; auto;
    exfalso; eapply Hna; eauto 20.
Qed.

End PairFacts.

(** ** Concrete instances of the further properties *)
Module FactRuns.
Import Sock Pair Digit Version Bytes Hosts PairFacts ValueFacts.
Local Open Scope Z_scope.

(** "12ab" has only decimal digits among its digits: [to_digit] gives 12. *)
Lemma to_digit_no_error_witness :
  ((length ([49; 50; 97; 98]%Z : list Z) <= 4300)%nat /\
   forallb (fun c => negb (numeric_digit_char c) || isdecimal_char c) [49; 50; 97; 98]
   = true) /\
  exists n, to_digit [49; 50; 97; 98] = Ok n /\ 0 <= n.
Proof.
  split; [split; [simpl; lia | reflexivity]|].
  apply to_digit_no_error; [simpl; lia | reflexivity].
Defined.

(** "15rc1" (a release candidate) gives 15, as "15" does. *)
Lemma to_digit_leading_digits_witness :
  isdigit_char 114 = false /\ to_digit ([49; 53] ++ 114 :: [99; 49]) = to_digit [49; 53].
Proof.
  split; [reflexivity|].
  apply to_digit_leading_digits; [discriminate | reflexivity | reflexivity | lia].
Defined.

(** "42\n" gives 4, not 42. *)
Lemma to_digit_trailing_newline_witness :
  forallb isdecimal_char ([52] ++ [50]) = true /\
  to_digit ([52] ++ [50; 10]) = to_digit [52] /\ to_digit [52] = Ok 4.
Proof.
  split; [reflexivity|split; [|reflexivity]].
  apply (to_digit_trailing_newline [52] 50); reflexivity.
Defined.

(** "v5" gives 0. *)
Lemma to_digit_nondigit_first_witness :
  isdigit_char 118 = false /\ to_digit (118 :: [53]) = Ok 0.
Proof. split; [reflexivity|apply to_digit_nondigit_first; reflexivity]. Defined.

Lemma long_str_round_trip_witness :
  (0 <= 120 /\ (length (long_str 120) <= 4300)%nat) /\ to_digit (long_str 120) = Ok 120.
Proof.
  split; [split; [lia | apply Nat.leb_le; reflexivity]|].
  apply long_str_round_trip; [lia | apply Nat.leb_le; reflexivity].
Defined.

Lemma long_repr_round_trip_witness :
  (0 <= 42 /\ (length (long_str 42) <= 4300)%nat) /\ to_digit (long_repr 42) = Ok 42.
Proof.
  split; [split; [lia | apply Nat.leb_le; reflexivity]|].
  apply long_repr_round_trip; [lia | apply Nat.leb_le; reflexivity].
Defined.


(** "5.15.0-91-generic" gives a tuple of three non-negative numbers. *)
Lemma get_linux_version_shape_witness :
  get_linux_version [53; 46; 49; 53; 46; 48; 45; 57; 49; 45; 103] = Ok [5; 15; 0] /\
  (1 <= length ([5; 15; 0]%Z : list Z) <= 3)%nat /\ Forall (fun x => 0 <= x) [5; 15; 0].
Proof.
  split; [reflexivity|].
  apply (get_linux_version_shape [53; 46; 49; 53; 46; 48; 45; 57; 49; 45; 103]).
  reflexivity.
Defined.

(** "5.4.0-generic" reads as "5.4.0". *)
Lemma get_linux_version_dash_witness :
  ~ In 45 [53; 46; 52; 46; 48] /\
  get_linux_version ([53; 46; 52; 46; 48] ++ 45 :: [103; 101; 110])
  = get_linux_version [53; 46; 52; 46; 48].
Proof.
  split; [simpl; lia|].
  apply get_linux_version_dash; simpl; lia.
Defined.

(** "5.15.0-91" gives [(5, 15, 0)]. *)
Lemma get_linux_version_int_str_witness :
  ((length (int_str 5) <= 4300)%nat /\ (length (int_str 15) <= 4300)%nat /\
   (length (int_str 0) <= 4300)%nat) /\
  get_linux_version (int_str 5 ++ 46 :: int_str 15 ++ 46 :: int_str 0 ++ [45; 57; 49])
  = Ok [5; 15; 0].
Proof.
  split; [split; [|split]; apply Nat.leb_le; reflexivity|].
  apply get_linux_version_int_str; try lia; try (apply Nat.leb_le; reflexivity).
  right; exists [57; 49]; left; reflexivity.
Defined.

Lemma as_bytes_ascii_witness :
  Forall (fun c => 0 <= c < 128) [104; 105] /\ as_bytes (PyStr [104; 105]) = Ok [104; 105].
Proof.
  assert (Forall (fun c => 0 <= c < 128) [104; 105]) as H
    by (repeat first [apply List.Forall_nil | apply List.Forall_cons]; lia).
  split; [exact H | apply as_bytes_ascii; exact H].
Defined.

(** "hé€" and an emoji: one, two, three and four octets. *)
Lemma as_bytes_str_ok_witness :
  Forall (fun c => 0 <= c <= 1114111 /\ ~ (55296 <= c <= 57343)) [104; 233; 8364; 128512] /\
  exists b, as_bytes (PyStr [104; 233; 8364; 128512]) = Ok b /\
    Forall (fun x => 0 <= x <= 255) b /\
    (length ([104; 233; 8364; 128512]%Z : list Z) <= length b
     <= 4 * length ([104; 233; 8364; 128512]%Z : list Z))%nat.
Proof.
  assert (Forall (fun c => 0 <= c <= 1114111 /\ ~ (55296 <= c <= 57343))
            [104; 233; 8364; 128512]) as H
    by (repeat first [apply List.Forall_nil | apply List.Forall_cons]; lia).
  split; [exact H | apply as_bytes_str_ok; exact H].
Defined.

Lemma as_bytes_surrogate_witness :
  (In 55357 [97; 55357] /\ 55296 <= 55357 <= 57343) /\
  as_bytes (PyStr [97; 55357]) = Exc (UnicodeEncodeError "surrogates not allowed").
Proof.
  split; [split; [simpl; auto | lia]|].
  apply (as_bytes_surrogate _ 55357); [simpl; auto | lia].
Defined.

(** The fault-free IPv4 run makes the ten calls, connecting to port
    40000 on "127.0.0.1". *)
Lemma socketpair_success_trace_witness :
  run (nonblocking_socketpair AF_INET SOCK_STREAM 0) env_ok world0
  = (Ok (5%nat, 4%nat), snd (run (nonblocking_socketpair AF_INET SOCK_STREAM 0) env_ok world0)) /\
  new_calls world0 (snd (run (nonblocking_socketpair AF_INET SOCK_STREAM 0) env_ok world0)) =
    [(SysSocket AF_INET SOCK_STREAM 0, RetFd 3);
     (SysBind 3 ("127.0.0.1"%string, 0%Z), RetOk);
     (SysListen 3 128, RetOk);
     (SysGetsockname 3, RetOk);
     (SysSocket AF_INET SOCK_STREAM 0, RetFd 4);
     (SysConnect 4 ("127.0.0.1"%string, 40000%Z), RetOk);
     (SysAccept 3, RetFd 5);
     (SysClose 3, RetOk);
     (SysSetblocking 4 false, RetOk);
     (SysSetblocking 5 false, RetOk)].
Proof.
  assert (run (nonblocking_socketpair AF_INET SOCK_STREAM 0) env_ok world0
          = (Ok (5%nat, 4%nat),
             snd (run (nonblocking_socketpair AF_INET SOCK_STREAM 0) env_ok world0))) as H
    by (vm_compute; reflexivity).
  split; [exact H|].
  destruct (socketpair_success_trace _ _ _ _ _ _ _ _ H) as (_ & _ & _ & host & Hh & ->).
  destruct Hh as [[_ ->] | [Hf _]]; [reflexivity | discriminate Hf].
Defined.

(** After the refused connect, the descriptors below 3 and from 5 on
    are as before. *)
Lemma socketpair_frame_witness :
  (w_next world0 <= w_next (snd (run (nonblocking_socketpair AF_INET SOCK_STREAM 0)
                                     env_connect_fails world0))
   <= w_next world0 + 3)%nat /\
  w_socks (snd (run (nonblocking_socketpair AF_INET SOCK_STREAM 0)
                    env_connect_fails world0)) !! 7%nat
  = w_socks world0 !! 7%nat.
Proof.
  destruct (socketpair_frame AF_INET SOCK_STREAM 0 env_connect_fails world0
    (snd (run (nonblocking_socketpair AF_INET SOCK_STREAM 0) env_connect_fails world0))
    (fst (run (nonblocking_socketpair AF_INET SOCK_STREAM 0) env_connect_fails world0))
    (surjective_pairing _)) as [Hb Hf].
  split; [exact Hb | apply Hf; right; vm_compute; lia].
Defined.

(** The close of the listener fails after the accept: the caller gets
    EIO and descriptors 4 and 5 are left open. *)
Lemma socketpair_pair_open_after_accept_witness :
  run (nonblocking_socketpair AF_INET SOCK_STREAM 0) env_listener_close_fails world0
  = (Exc (OSError 5),
     snd (run (nonblocking_socketpair AF_INET SOCK_STREAM 0) env_listener_close_fails world0)) /\
  In (SysAccept 3, RetFd 5)
     (new_calls world0 (snd (run (nonblocking_socketpair AF_INET SOCK_STREAM 0)
                                 env_listener_close_fails world0))) /\
  is_open (snd (run (nonblocking_socketpair AF_INET SOCK_STREAM 0)
                    env_listener_close_fails world0)) 5 = true /\
  is_open (snd (run (nonblocking_socketpair AF_INET SOCK_STREAM 0)
                    env_listener_close_fails world0)) (S (w_next world0)) = true.
Proof.
  assert (run (nonblocking_socketpair AF_INET SOCK_STREAM 0) env_listener_close_fails world0
  = (Exc (OSError 5),
     snd (run (nonblocking_socketpair AF_INET SOCK_STREAM 0) env_listener_close_fails world0)))
    as H by (vm_compute; reflexivity).
  assert (In (SysAccept 3, RetFd 5)
     (new_calls world0 (snd (run (nonblocking_socketpair AF_INET SOCK_STREAM 0)
                                 env_listener_close_fails world0)))) as Ha
    by (vm_compute; intuition).
  split; [exact H | split; [exact Ha |]].
  apply (socketpair_pair_open_after_accept _ _ _ _ _ _ _ _ _ H Ha).
Defined.

(** The refused connect: descriptors 3 and 4 both end closed. *)
Lemma socketpair_failure_closes_all_witness :
  run (nonblocking_socketpair AF_INET SOCK_STREAM 0) env_connect_fails world0
  = (Exc (OSError 111),
     snd (run (nonblocking_socketpair AF_INET SOCK_STREAM 0) env_connect_fails world0)) /\
  is_open (snd (run (nonblocking_socketpair AF_INET SOCK_STREAM 0)
                    env_connect_fails world0)) 4 = false.
Proof.
  assert (run (nonblocking_socketpair AF_INET SOCK_STREAM 0) env_connect_fails world0
  = (Exc (OSError 111),
     snd (run (nonblocking_socketpair AF_INET SOCK_STREAM 0) env_connect_fails world0)))
    as H by (vm_compute; reflexivity).
  split; [exact H|].
  apply (socketpair_failure_closes_all _ _ _ _ _ _ _ H).
  - intros l s Hin. vm_compute in Hin. intuition discriminate.
  - vm_compute; lia.
Defined.

End FactRuns.
